(** * RFM segmentation and alerts of [app_rfm_dashboard_predef_alerts.py]

    A shallow embedding of the core of the dashboard: the percentile cut
    points, the Painless scoring script pushed to Elasticsearch by
    [compute_rfm_segments], the terms aggregation that counts its labels,
    and [check_alerts].

    Numbers: the script compares [double]s and Python divides [float]s.
    They are modelled by exact rationals [Q]; comparisons of finite values
    are exact in both, and the divisions used below are exact or round to
    the same printed text. *)

From Stdlib Require Import QArith ZArith Arith Lia List String Ascii Bool.
From Stdlib Require Import Sorting.Permutation Sorting.Sorted.
Import ListNotations.
Open Scope string_scope.
Open Scope nat_scope.

(* ------------------------------------------------------------------ *)
(** ** Sub-scores (lines 76-89 of the script) *)

(** The four cut points of one metric, keys ['20.0'] .. ['80.0']. *)
Record cuts := mk_cuts { c20 : Q; c40 : Q; c60 : Q; c80 : Q }.

(** [int R = (r <= r20 ? 5 : r <= r40 ? 4 : r <= r60 ? 3 : r <= r80 ? 2 : 1)] *)
Definition r_score (c : cuts) (r : Q) : nat :=
  if Qle_bool r (c20 c) then 5
  else if Qle_bool r (c40 c) then 4
  else if Qle_bool r (c60 c) then 3
  else if Qle_bool r (c80 c) then 2
  else 1.

(** [int F = (f <= f20 ? 1 : f <= f40 ? 2 : f <= f60 ? 3 : f <= f80 ? 4 : 5)],
    and the same for [M]. *)
Definition fm_score (c : cuts) (x : Q) : nat :=
  if Qle_bool x (c20 c) then 1
  else if Qle_bool x (c40 c) then 2
  else if Qle_bool x (c60 c) then 3
  else if Qle_bool x (c80 c) then 4
  else 5.

(* ------------------------------------------------------------------ *)
(** ** Segment cascade (lines 91-99 of the script) *)

Definition classify (R F M : nat) : string :=
  let code := R * 100 + F * 10 + M in
  if 544 <=? code then "Champions"
  else if (R =? 5) || ((R =? 4) && (4 <=? F)) then "Loyal Customers"
  else if F =? 5 then "Frequent Buyers"
  else if M =? 5 then "Big Spenders"
  else if (4 <=? R) && (F <=? 2) then "Potential Loyalists"
  else if R =? 2 then "At Risk"
  else "Hibernating".

(** The seven labels of the spec, in the order of its cascade. *)
Definition segment_labels : list string :=
  ["Champions"; "Loyal Customers"; "Frequent Buyers"; "Big Spenders";
   "Potential Loyalists"; "At Risk"; "Hibernating"].

(** The cascade as the spec words it: an ordered table of rules, the
    first rule whose condition holds gives the label. *)
Definition segment_rules : list ((nat -> nat -> nat -> bool) * string) :=
  [ ((fun R F M => 544 <=? R * 100 + F * 10 + M), "Champions");
    ((fun R F _ => (R =? 5) || ((R =? 4) && (4 <=? F))), "Loyal Customers");
    ((fun _ F _ => F =? 5), "Frequent Buyers");
    ((fun _ _ M => M =? 5), "Big Spenders");
    ((fun R F _ => (4 <=? R) && (F <=? 2)), "Potential Loyalists");
    ((fun R _ _ => R =? 2), "At Risk");
    ((fun _ _ _ => true), "Hibernating") ].

Fixpoint first_match (rules : list ((nat -> nat -> nat -> bool) * string))
    (R F M : nat) : option string :=
  match rules with
  | [] => None
  | (p, l) :: rest => if p R F M then Some l else first_match rest R F M
  end.

(** Whether the condition of the rule giving label [l] holds. *)
Definition rule_matches (l : string) (R F M : nat) : bool :=
  existsb (fun rule => String.eqb (snd rule) l && fst rule R F M) segment_rules.

(** A document of the index: its values of ["Days Since Last Purchase"],
    ["Items Purchased"] and ["Total Spend"], [None] when the document has
    no value for the field. *)
Record doc := mk_doc { days : option Q; items : option Q; spend : option Q }.

(** The script on one document: [doc['..'].value] for the three fields
    (lines 72-74), then the three sub-scores fed to the cascade. Reading
    [.value] of a field the document has no value for throws in Painless
    (Elasticsearch 7 and later): [None]. *)
Definition doc_label (rc fc mc : cuts) (d : doc) : option string :=
  match days d, items d, spend d with
  | Some r, Some f, Some m => Some (classify (r_score rc r) (fm_score fc f) (fm_score mc m))
  | _, _, _ => None
  end.

(** The document has a value for each of the three fields. *)
Definition has_fields (d : doc) : bool :=
  match days d, items d, spend d with
  | Some _, Some _, Some _ => true
  | _, _, _ => false
  end.

(** Every script run succeeds: the list of results, [None] as soon as one
    run throws. *)
Fixpoint all_some {A} (l : list (option A)) : option (list A) :=
  match l with
  | [] => Some []
  | Some x :: t => match all_some t with Some xs => Some (x :: xs) | None => None end
  | None :: _ => None
  end.

(* ------------------------------------------------------------------ *)
(** ** Errors and results *)

(** The exceptions the code can raise on the paths modelled here: a
    missing dictionary key in Python, a failed scripted search (a script
    Elasticsearch refuses to compile, or one that throws on a document),
    and a Python division by zero. *)
Inductive py_error :=
| KeyError (k : string)
| ScriptError
| ZeroDivisionError.

Inductive result (A : Type) :=
| Ok (a : A)
| Err (e : py_error).
Arguments Ok {A} a.
Arguments Err {A} e.

Definition bind {A B} (m : result A) (k : A -> result B) : result B :=
  match m with Ok a => k a | Err e => Err e end.

Notation "x <- m ;; k" := (bind m (fun x => k))
  (at level 61, m at next level, right associativity).

(* ------------------------------------------------------------------ *)
(** ** Percentile response ([get_percentiles], lines 53-63) *)

(** The ["values"] object of one percentiles aggregation: percent key to
    value, [None] standing for a JSON [null]. *)
Definition pct_values := list (string * option Q).

(** [{"r": ..., "f": ..., "m": ...}] as returned by [get_percentiles]. *)
Record pct_response := mk_pct { r_vals : pct_values; f_vals : pct_values; m_vals : pct_values }.

(** Python's [d[k]] on a dict. *)
Fixpoint dict_get {V} (d : list (string * V)) (k : string) : result V :=
  match d with
  | [] => Err (KeyError k)
  | (k', v) :: t => if String.eqb k' k then Ok v else dict_get t k
  end.

(** [d.get(k, default)]. *)
Fixpoint dict_get_default {V} (d : list (string * V)) (k : string) (dflt : V) : V :=
  match d with
  | [] => dflt
  | (k', v) :: t => if String.eqb k' k then v else dict_get_default t k dflt
  end.

(** The four lookups [x_cut['20.0']] .. [x_cut['80.0']] of the f-string. *)
Definition lookup_cuts (vals : pct_values)
  : result (option Q * option Q * option Q * option Q) :=
  a <- dict_get vals "20.0" ;;
  b <- dict_get vals "40.0" ;;
  c <- dict_get vals "60.0" ;;
  d <- dict_get vals "80.0" ;;
  Ok (a, b, c, d).

(** A [None] value is written into the script as the text [None], which
    Painless cannot resolve; only numeric values give a script that
    compiles. *)
Definition script_cuts (v : option Q * option Q * option Q * option Q) : option cuts :=
  match v with
  | (Some a, Some b, Some c, Some d) => Some (mk_cuts a b c d)
  | _ => None
  end.

(* ------------------------------------------------------------------ *)
(** ** Terms aggregation over the script ([size: 10], lines 102-105) *)

(** One more document with label [l]: bucket counts in order of first
    occurrence. *)
Fixpoint add_label (l : string) (bs : list (string * nat)) : list (string * nat) :=
  match bs with
  | [] => [(l, 1)]
  | (k, n) :: t => if String.eqb k l then (k, S n) :: t else (k, n) :: add_label l t
  end.

Definition count_labels (ls : list string) : list (string * nat) :=
  fold_left (fun bs l => add_label l bs) ls [].

(** Default bucket order of a terms aggregation: [doc_count] descending,
    then key ascending. *)
Definition bucket_before (a b : string * nat) : bool :=
  (snd b <? snd a) || ((snd a =? snd b) && String.ltb (fst a) (fst b)).

Fixpoint insert_bucket (b : string * nat) (bs : list (string * nat)) : list (string * nat) :=
  match bs with
  | [] => [b]
  | b' :: t => if bucket_before b' b then b' :: insert_bucket b t else b :: b' :: t
  end.

Fixpoint sort_buckets (bs : list (string * nat)) : list (string * nat) :=
  match bs with
  | [] => []
  | b :: t => insert_bucket b (sort_buckets t)
  end.

Definition terms_agg (size : nat) (ls : list string) : list (string * nat) :=
  firstn size (sort_buckets (count_labels ls)).

(** [compute_rfm_segments] on the percentile response [pct] and the
    documents of the index: the f-string lookups (a [KeyError] aborts
    before any request), the script (refused when a cut is [null]; the
    search fails when it throws on one document), and the
    [{key: doc_count}] dict of the size-10 terms aggregation. *)
Definition compute_rfm_segments (pct : pct_response) (docs : list doc)
  : result (list (string * nat)) :=
  r <- lookup_cuts (r_vals pct) ;;
  f <- lookup_cuts (f_vals pct) ;;
  m <- lookup_cuts (m_vals pct) ;;
  match script_cuts r, script_cuts f, script_cuts m with
  | Some rc, Some fc, Some mc =>
      match all_some (map (doc_label rc fc mc) docs) with
      | Some ls => Ok (terms_agg 10 ls)
      | None => Err ScriptError
      end
  | _, _, _ => Err ScriptError
  end.

(* ------------------------------------------------------------------ *)
(** ** Python number formatting *)

Fixpoint digits_aux (fuel : nat) (n : Z) (acc : string) : string :=
  match fuel with
  | O => acc
  | S k =>
      let acc' := String (ascii_of_nat (48 + Z.to_nat (Z.modulo n 10))) acc in
      if Z.ltb n 10 then acc' else digits_aux k (Z.div n 10) acc'
  end.

(** Decimal text of a non-negative integer, as [str(n)]. *)
Definition z_to_string (n : Z) : string :=
  digits_aux (S (Z.to_nat (Z.log2 n))) n "".

Definition nat_to_string (n : nat) : string := z_to_string (Z.of_nat n).

Fixpoint zeros (k : nat) : string :=
  match k with O => "" | S k' => String "0" (zeros k') end.

(** Rounding to the nearest integer, ties to even, as Python's
    fixed-point formatting rounds the exact value. *)
Definition round_half_even (q : Q) : Z :=
  let n := Qnum q in
  let d := Zpos (Qden q) in
  let fl := Z.div n d in
  let r := (n - fl * d)%Z in
  match Z.compare (2 * r)%Z d with
  | Lt => fl
  | Gt => (fl + 1)%Z
  | Eq => if Z.even fl then fl else (fl + 1)%Z
  end.

(** [f"{x:.<d>f}"] of the exact value [x]. Python formats the double the
    float computation yields, so the two agree when that double is [x]
    (as for every value printed in the theorems below); a quotient such
    as [23/80*100] is not exact in binary and may print differently. *)
Definition fmt_fixed (x : Q) (d : nat) : string :=
  let p := (10 ^ Z.of_nat d)%Z in
  let z := round_half_even (x * inject_Z p)%Q in
  let a := Z.abs z in
  let ip := z_to_string (Z.div a p) in
  let fp := z_to_string (Z.modulo a p) in
  (if Z.ltb z 0%Z then "-" else "") ++ ip ++
  (match d with
   | O => ""
   | _ => "." ++ zeros (d - String.length fp) ++ fp
   end).

(** [s in t] on strings. *)
Fixpoint contains (s t : string) : bool :=
  String.prefix s t ||
  match t with
  | EmptyString => false
  | String _ t' => contains s t'
  end.

(* ------------------------------------------------------------------ *)
(** ** Alerts ([check_alerts], lines 108-126) *)

Definition Qltb (a b : Q) : bool := negb (Qle_bool b a).

(** Python's true division [a / b]. *)
Definition py_div (a b : Q) : result Q :=
  if Qeq_bool b 0%Q then Err ZeroDivisionError else Ok (a / b)%Q.

Definition alert := (string * string)%type.

(** [check_alerts] given the answers of its queries: [total] from
    [agg_total_customers], [avg] from [agg_avg_rating] ([None] for a
    JSON [null]), [unsat] from [agg_unsatisfied_count], and the outcome of
    its call to [compute_rfm_segments]. *)
Definition check_alerts (total : nat) (avg : option Q) (unsat : nat)
    (segs : result (list (string * nat))) : result (list alert) :=
  let avg_rating := match avg with Some a => a | None => 0%Q end in
  unsat_pct <- (if total =? 0 then Ok 0%Q
                else (p <- py_div (inject_Z (Z.of_nat unsat)) (inject_Z (Z.of_nat total)) ;;
                      Ok (p * 100)%Q)) ;;
  let a1 := if Qltb avg_rating (7 # 2)
            then [("Low average rating", "Average rating is " ++ fmt_fixed avg_rating 2 ++ " (< 3.5)")]
            else [] in
  let a2 := if Qltb 10%Q unsat_pct
            then [("High unsatisfied rate", fmt_fixed unsat_pct 1 ++ "% of customers are unsatisfied (>10%)")]
            else [] in
  s <- segs ;;
  let at_risk := dict_get_default s "At Risk" 0 in
  if total =? 0 then Ok (a1 ++ a2)%list
  else
    p <- py_div (inject_Z (Z.of_nat at_risk)) (inject_Z (Z.of_nat total)) ;;
    if Qltb 15%Q (p * 100)%Q
    then Ok (app a1 (app a2 [("Large At-Risk group",
               nat_to_string at_risk ++ " customers (" ++ fmt_fixed (p * 100)%Q 1 ++ "%) are At Risk (>15%)")]))
    else Ok (a1 ++ a2)%list.

Definition titles (l : list alert) : list string := map fst l.

(* ------------------------------------------------------------------ *)
(** ** Total number of customers ([agg_total_customers], lines 19-22) *)

(** The [hits.total] of a search response. Elasticsearch 7 and later
    return an object [{"value": n, "relation": r}]; when the request does
    not set [track_total_hits] (as [agg_total_customers] does not), the
    count is exact up to 10000 matching documents only, beyond which the
    answer is [{"value": 10000, "relation": "gte"}]. Earlier versions
    return the exact count as an integer. *)
Inductive hits_total :=
| TotalObj (value : nat) (relation : string)
| TotalInt (n : nat).

(** The [hits.total] of an Elasticsearch 7+ search matching [n] documents,
    default [track_total_hits]. *)
Definition es7_hits_total (n : nat) : hits_total :=
  if n <=? 10000 then TotalObj n "eq" else TotalObj 10000 "gte".

(** [res["hits"]["total"]["value"] if isinstance(res["hits"]["total"], dict)
    else res["hits"]["total"]]. *)
Definition agg_total_customers (t : hits_total) : nat :=
  match t with
  | TotalObj v _ => v
  | TotalInt n => n
  end.

(* ------------------------------------------------------------------ *)
(** ** The predefined questions (lines 32-50, 133-162) *)

(** The values a set of documents holds in one field; [None] for a
    document without the field, which a terms aggregation skips. *)
Definition present {A} (vals : list (option A)) : list A :=
  flat_map (fun o => match o with Some x => [x] | None => [] end) vals.

(** [agg_count_by]: a terms aggregation of size 100 on a keyword field,
    read back as the dict [{key: doc_count}]. Counts are those of a single
    shard, that is exact. *)
Definition agg_count_by (vals : list (option string)) : list (string * nat) :=
  terms_agg 100 (present vals).

(** The two metric aggregations the predefined questions pass as
    [agg_type]: ["avg"] and ["sum"]. *)
Inductive metric_kind := MAvg | MSum.

(** The entries of [PREDEFINED_QUERIES]. *)
Inductive query :=
| QMetricByGroup (metric_field : string) (agg_type : metric_kind) (group_field : string)
| QCountBy (field_keyword : string).

Definition PREDEFINED_QUERIES : list (string * query) :=
  [("Average age by membership", QMetricByGroup "Age" MAvg "Membership_Type.keyword");
   ("Total spend by membership", QMetricByGroup "Total Spend" MSum "Membership_Type.keyword");
   ("Average rating by gender", QMetricByGroup "Average Rating" MAvg "Gender.keyword");
   ("Average items purchased by membership",
      QMetricByGroup "Items Purchased" MAvg "Membership_Type.keyword");
   ("Count of customers by satisfaction level", QCountBy "Satisfaction_Level.keyword")].

(** The options of the sidebar select box. *)
Definition question_options : list string :=
  [""] ++ map fst PREDEFINED_QUERIES ++ ["Show alerts"].

Inductive action :=
| NoAction
| ShowAlerts
| RunQuery (q : query).

(** The [if question:] block: nothing for the empty option, the alerts for
    ["Show alerts"], otherwise [PREDEFINED_QUERIES[question]]. *)
Definition dispatch (question : string) : result action :=
  if String.eqb question "" then Ok NoAction
  else if String.eqb question "Show alerts" then Ok ShowAlerts
  else q <- dict_get PREDEFINED_QUERIES question ;; Ok (RunQuery q).

(* ------------------------------------------------------------------ *)
(** ** Concrete inputs *)

(** A cut set: 10, 20, 30, 40. *)
Definition ex_cuts : cuts := mk_cuts 10 20 30 40.

(** A percentile [values] object with all four keys. *)
Definition full_vals (a b c d : Q) : pct_values :=
  [("20.0", Some a); ("40.0", Some b); ("60.0", Some c); ("80.0", Some d)].

(** The percentile [values] of a metric whose store answer holds the cut
    set [c]. *)
Definition cut_vals (c : cuts) : pct_values := full_vals (c20 c) (c40 c) (c60 c) (c80 c).

Definition ex_pct : pct_response :=
  mk_pct (full_vals 10 20 30 40) (full_vals 1 2 3 4) (full_vals 100 200 300 400).

Definition ex_docs : list doc :=
  [mk_doc (Some 5%Q) (Some 5%Q) (Some 500%Q); mk_doc (Some 35%Q) (Some 1%Q) (Some 50%Q);
   mk_doc (Some 100%Q) (Some 3%Q) (Some 250%Q); mk_doc (Some 8%Q) (Some 5%Q) (Some 500%Q)].

(** A customer who has a value for each of the three fields. *)
Definition full_doc : doc := mk_doc (Some 5%Q) (Some 5%Q) (Some 500%Q).

(** An index of 10001 such customers. *)
Definition big_docs : list doc := repeat full_doc 10001.

(** What the store answers to the percentiles request on an empty index:
    every requested key with a [null] value. *)
Definition null_vals : pct_values :=
  [("20.0", None); ("40.0", None); ("60.0", None); ("80.0", None)].

Definition empty_pct : pct_response := mk_pct null_vals null_vals null_vals.

Example fmt_ex1 : fmt_fixed (16#5) 2 = "3.20". Proof. reflexivity. Qed.
Example fmt_ex2 : fmt_fixed (1234#1000) 1 = "1.2". Proof. reflexivity. Qed.
Example fmt_ex3 : fmt_fixed 0 2 = "0.00". Proof. reflexivity. Qed.
Example fmt_ex4 : nat_to_string 120 = "120". Proof. reflexivity. Qed.
Example terms_ex : terms_agg 10 ["b"; "a"; "b"; "c"] = [("b", 2); ("a", 1); ("c", 1)]. Proof. reflexivity. Qed.

(* ------------------------------------------------------------------ *)
(** ** Helper lemmas *)

Ltac split_ifs :=
  repeat match goal with
         | |- context [if ?b then _ else _] => destruct b
         end.

Lemma classify_first_match (R F M : nat) :
  Some (classify R F M) = first_match segment_rules R F M.
Proof. unfold classify; cbn; split_ifs; reflexivity. Qed.

Lemma classify_in_labels (R F M : nat) : In (classify R F M) segment_labels.
Proof. unfold classify, segment_labels; split_ifs; simpl; tauto. Qed.

Lemma segment_labels_nodup : NoDup segment_labels.
Proof. unfold segment_labels; repeat constructor; simpl; intuition discriminate. Qed.

Lemma r_score_range (c : cuts) (x : Q) : 1 <= r_score c x <= 5.
Proof. unfold r_score; split_ifs; lia. Qed.

Lemma fm_score_range (c : cuts) (x : Q) : 1 <= fm_score c x <= 5.
Proof. unfold fm_score; split_ifs; lia. Qed.

Lemma Qle_bool_refl' (x : Q) : Qle_bool x x = true.
Proof. apply Qle_bool_iff, Qle_refl. Qed.

Lemma Qle_bool_mono (v w x : Q) :
  (v <= w)%Q -> Qle_bool w x = true -> Qle_bool v x = true.
Proof.
  intros Hvw H. apply Qle_bool_iff in H. apply Qle_bool_iff.
  eapply Qle_trans; eassumption.
Qed.

Lemma Qle_bool_false_lt (x y : Q) : Qle_bool x y = false -> (y < x)%Q.
Proof.
  intros H. apply Qnot_le_lt. intros H'. apply Qle_bool_iff in H'. congruence.
Qed.

(* ------------------------------------------------------------------ *)
(** ** C1, C6: the segment cascade *)

(** C1. The script's cascade is the spec's ordered rule table read
    first-match-wins: for every sub-score triple its label is the label of
    the first rule (Champions, Loyal Customers, Frequent Buyers, Big
    Spenders, Potential Loyalists, At Risk, Hibernating) whose condition
    holds. In particular code 555 is Champions although it also meets the
    Frequent Buyers and Big Spenders conditions. *)
Theorem cascade_first_match_wins :
  (forall R F M, Some (classify R F M) = first_match segment_rules R F M) /\
  rule_matches "Frequent Buyers" 5 5 5 = true /\
  rule_matches "Big Spenders" 5 5 5 = true /\
  classify 5 5 5 = "Champions".
Proof.
  split; [exact classify_first_match |].
  repeat split.
Qed.

(** C6. The cascade is total: for every triple (R, F, M) some rule of the
    table matches (the catch-all Hibernating at the latest) and the label is
    one of the seven distinct labels; the sub-scores the script computes
    always lie in [1,5]. *)
Theorem cascade_total :
  NoDup segment_labels /\
  (forall R F M, first_match segment_rules R F M <> None /\
                 In (classify R F M) segment_labels) /\
  (forall c x, 1 <= r_score c x <= 5 /\ 1 <= fm_score c x <= 5).
Proof.
  split; [exact segment_labels_nodup |]. split.
  - intros R F M. split.
    + rewrite <- classify_first_match. discriminate.
    + apply classify_in_labels.
  - intros c x. split; [apply r_score_range | apply fm_score_range].
Qed.

(* ------------------------------------------------------------------ *)
(** ** C2, C8: sub-scores *)

Lemma Qlt_le_bool_false (x y : Q) : (y < x)%Q -> Qle_bool x y = false.
Proof.
  intros H. destruct (Qle_bool x y) eqn:E; [| reflexivity].
  apply Qle_bool_iff in E. exfalso. apply (Qlt_not_le y x H E).
Qed.

Ltac at_boundary x :=
  rewrite (Qle_bool_refl' x); split_ifs; lia.

(** C2 (as stated, refuted). The claim puts a value lying on a boundary in
    the lower-scoring of the two buckets next to it. For recency the
    inclusive [<=] puts it in the higher-scoring one: with cuts
    10/20/30/40, recency 10 scores R = 5 and recency 10.5 scores R = 4. *)
Lemma recency_tie_not_lower_score :
  ~ (forall (c : cuts) (eps : Q), (0 < eps)%Q ->
       r_score c (c20 c) <= r_score c (c20 c + eps)%Q).
Proof.
  intros H. specialize (H ex_cuts (1 # 2) eq_refl).
  vm_compute in H. lia.
Qed.

(** C2 (amended). A value equal to a boundary falls on the [<=] side of it:
    recency equal to the 20th-percentile cut scores R = 5 and frequency or
    monetary equal to it scores 1, for every cut set; a value equal to the
    k-th cut scores F, M <= k and R >= 6 - k; and when the cuts are
    strictly ascending exactly F = M = k (the lower score of the two
    sides) and R = 6 - k (the higher score of the two sides). *)
Theorem boundary_ties (c : cuts) :
  (r_score c (c20 c) = 5 /\ fm_score c (c20 c) = 1) /\
  (4 <= r_score c (c40 c) /\ fm_score c (c40 c) <= 2) /\
  (3 <= r_score c (c60 c) /\ fm_score c (c60 c) <= 3) /\
  (2 <= r_score c (c80 c) /\ fm_score c (c80 c) <= 4) /\
  ((c20 c < c40 c)%Q -> (c40 c < c60 c)%Q -> (c60 c < c80 c)%Q ->
     r_score c (c40 c) = 4 /\ r_score c (c60 c) = 3 /\ r_score c (c80 c) = 2 /\
     fm_score c (c40 c) = 2 /\ fm_score c (c60 c) = 3 /\ fm_score c (c80 c) = 4).
Proof.
  unfold r_score, fm_score.
  split; [rewrite Qle_bool_refl'; auto |].
  split; [split; at_boundary (c40 c) |].
  split; [split; at_boundary (c60 c) |].
  split; [split; at_boundary (c80 c) |].
  intros H12 H23 H34.
  assert (H13 : (c20 c < c60 c)%Q) by (eapply Qlt_trans; eassumption).
  assert (H24 : (c40 c < c80 c)%Q) by (eapply Qlt_trans; eassumption).
  assert (H14 : (c20 c < c80 c)%Q) by (eapply Qlt_trans; eassumption).
  rewrite !Qle_bool_refl'.
  rewrite (Qlt_le_bool_false _ _ H12), (Qlt_le_bool_false _ _ H23),
          (Qlt_le_bool_false _ _ H34), (Qlt_le_bool_false _ _ H13),
          (Qlt_le_bool_false _ _ H24), (Qlt_le_bool_false _ _ H14).
  repeat split.
Qed.

Lemma boundary_ties_witness :
  ((10 < 20)%Q /\ (20 < 30)%Q /\ (30 < 40)%Q) /\
  r_score ex_cuts 20 = 4 /\ fm_score ex_cuts 20 = 2.
Proof.
  assert (Hs : (10 < 20)%Q /\ (20 < 30)%Q /\ (30 < 40)%Q)
    by (repeat split; reflexivity).
  destruct Hs as (H1 & H2 & H3).
  destruct (boundary_ties ex_cuts) as (_ & _ & _ & _ & Hx).
  destruct (Hx H1 H2 H3) as (Ha & _ & _ & Hb & _).
  split; [repeat split; assumption |].
  split; [exact Ha | exact Hb].
Defined.

(** C8. Scoring direction: for every cut set (ordered or not), a smaller
    raw value never gets a lower R score and never a higher F or M score.
    R is non-increasing in recency, F and M non-decreasing in frequency and
    monetary value; so recency 1 scores at least as high as recency 100. *)
Theorem recency_reversed (c : cuts) (v w : Q) (Hvw : (v <= w)%Q) :
  r_score c w <= r_score c v /\ fm_score c v <= fm_score c w.
Proof.
  unfold r_score, fm_score.
  split;
  repeat match goal with
         | |- context [Qle_bool ?x ?y] => destruct (Qle_bool x y) eqn:?
         end; try lia;
  match goal with
  | H1 : Qle_bool w ?x = true, H2 : Qle_bool v ?x = false |- _ =>
      rewrite (Qle_bool_mono v w x Hvw H1) in H2; discriminate
  end.
Qed.

Lemma recency_reversed_witness :
  (1 <= 100)%Q /\ r_score ex_cuts 100 <= r_score ex_cuts 1 /\
  r_score ex_cuts 1 = 5 /\ r_score ex_cuts 100 = 1.
Proof.
  assert (H : (1 <= 100)%Q) by (vm_compute; discriminate).
  split; [exact H |].
  split; [exact (proj1 (recency_reversed ex_cuts 1 100 H)) |].
  split; reflexivity.
Defined.

(* ------------------------------------------------------------------ *)
(** ** C7: the distribution counts every document once *)

Lemma add_label_sum (l : string) (bs : list (string * nat)) :
  list_sum (map snd (add_label l bs)) = S (list_sum (map snd bs)).
Proof.
  induction bs as [| [k n] t IH]; simpl; [reflexivity |].
  destruct (String.eqb k l); simpl; [reflexivity | rewrite IH; lia].
Qed.

Lemma count_labels_sum_aux (ls : list string) (acc : list (string * nat)) :
  list_sum (map snd (fold_left (fun bs l => add_label l bs) ls acc)) =
  List.length ls + list_sum (map snd acc).
Proof.
  revert acc. induction ls as [| l t IH]; intros acc; simpl; [reflexivity |].
  rewrite IH, add_label_sum. lia.
Qed.

Lemma count_labels_sum (ls : list string) :
  list_sum (map snd (count_labels ls)) = List.length ls.
Proof. unfold count_labels. rewrite count_labels_sum_aux. simpl. lia. Qed.

Lemma add_label_keys (l : string) (bs : list (string * nat)) :
  incl (map fst (add_label l bs)) (l :: map fst bs) /\
  (NoDup (map fst bs) -> NoDup (map fst (add_label l bs))).
Proof.
  induction bs as [| [k n] t [IHi IHn]]; simpl.
  - split; [apply incl_refl | intros _; repeat constructor; simpl; tauto].
  - destruct (String.eqb k l) eqn:E; simpl.
    + apply String.eqb_eq in E. subst k.
      split; [intros x Hx; simpl in Hx |- *; tauto | tauto].
    + apply String.eqb_neq in E. split.
      * intros x [Hx | Hx]; [simpl; tauto |].
        apply IHi in Hx. simpl in Hx |- *. tauto.
      * intros Hnd. inversion Hnd as [| ? ? Hnin Hnd']; subst.
        constructor; [| exact (IHn Hnd')].
        intros Hin. apply IHi in Hin. destruct Hin as [Heq | Hin]; [congruence | tauto].
Qed.

Lemma count_labels_keys_aux (ls : list string) (acc : list (string * nat)) :
  (forall l, In l ls -> In l segment_labels) ->
  incl (map fst acc) segment_labels -> NoDup (map fst acc) ->
  let r := fold_left (fun bs l => add_label l bs) ls acc in
  incl (map fst r) segment_labels /\ NoDup (map fst r).
Proof.
  revert acc. induction ls as [| l t IH]; intros acc Hls Hi Hn; simpl; [tauto |].
  destruct (add_label_keys l acc) as [Hi' Hn'].
  apply IH.
  - intros x Hx. apply Hls. simpl. tauto.
  - intros x Hx. apply Hi' in Hx. destruct Hx as [<- | Hx]; [apply Hls; simpl; tauto | auto].
  - exact (Hn' Hn).
Qed.

Lemma insert_bucket_perm (b : string * nat) (bs : list (string * nat)) :
  Permutation (insert_bucket b bs) (b :: bs).
Proof.
  induction bs as [| b' t IH]; simpl; [reflexivity |].
  destruct (bucket_before b' b); [| reflexivity].
  rewrite IH. apply perm_swap.
Qed.

Lemma sort_buckets_perm (bs : list (string * nat)) : Permutation (sort_buckets bs) bs.
Proof.
  induction bs as [| b t IH]; simpl; [reflexivity |].
  rewrite insert_bucket_perm, IH. reflexivity.
Qed.

Lemma terms_agg_conserves (ls : list string) :
  (forall l, In l ls -> In l segment_labels) ->
  let dist := terms_agg 10 ls in
  list_sum (map snd dist) = List.length ls /\
  NoDup (map fst dist) /\ incl (map fst dist) segment_labels.
Proof.
  intros Hls. unfold terms_agg.
  destruct (count_labels_keys_aux ls [] Hls (incl_nil_l _) (NoDup_nil _)) as [Hi Hn].
  fold (count_labels ls) in Hi, Hn.
  pose proof (sort_buckets_perm (count_labels ls)) as Hp.
  assert (Hlen : List.length (sort_buckets (count_labels ls)) <= 10).
  { rewrite (Permutation_length Hp), <- (length_map fst).
    pose proof (NoDup_incl_length Hn Hi) as H7. simpl in H7. lia. }
  rewrite (firstn_all2 _ Hlen).
  split; [| split].
  - rewrite (Permutation_list_sum (Permutation_map snd Hp)). apply count_labels_sum.
  - exact (Permutation_NoDup (Permutation_sym (Permutation_map fst Hp)) Hn).
  - intros x Hx. apply Hi. exact (Permutation_in _ (Permutation_map fst Hp) Hx).
Qed.

Lemma all_some_in {A} (l : list (option A)) (ls : list A) (x : A) :
  all_some l = Some ls -> In x ls -> In (Some x) l.
Proof.
  revert ls. induction l as [| [y |] t IH]; simpl; intros ls H.
  - injection H as <-. intros [].
  - destruct (all_some t) as [ys |] eqn:E; [| discriminate].
    injection H as <-. intros [<- | Hx]; [left; reflexivity | right; exact (IH ys eq_refl Hx)].
  - discriminate.
Qed.

Lemma all_some_length {A} (l : list (option A)) (ls : list A) :
  all_some l = Some ls -> List.length ls = List.length l.
Proof.
  revert ls. induction l as [| [y |] t IH]; simpl; intros ls H.
  - injection H as <-. reflexivity.
  - destruct (all_some t) as [ys |] eqn:E; [| discriminate].
    injection H as <-. simpl. rewrite (IH ys eq_refl). reflexivity.
  - discriminate.
Qed.

Lemma doc_label_in (rc fc mc : cuts) (d : doc) (l : string) :
  doc_label rc fc mc d = Some l -> In l segment_labels.
Proof.
  unfold doc_label. destruct (days d), (items d), (spend d); try discriminate.
  intros H. injection H as <-. apply classify_in_labels.
Qed.

Lemma doc_labels_in (rc fc mc : cuts) (docs : list doc) (ls : list string) :
  all_some (map (doc_label rc fc mc) docs) = Some ls ->
  forall l, In l ls -> In l segment_labels.
Proof.
  intros H l Hl. pose proof (all_some_in _ _ _ H Hl) as Hin.
  apply in_map_iff in Hin. destruct Hin as [d [Hd _]]. exact (doc_label_in _ _ _ _ _ Hd).
Qed.

Lemma doc_label_fields (rc fc mc : cuts) (d : doc) :
  has_fields d = true <-> exists l, doc_label rc fc mc d = Some l.
Proof.
  unfold has_fields, doc_label. destruct (days d), (items d), (spend d);
    split; intros H; try discriminate; try (destruct H as [l H]; discriminate);
    try reflexivity; eexists; reflexivity.
Qed.

Lemma all_some_fields (rc fc mc : cuts) (docs : list doc) :
  forallb has_fields docs = true ->
  exists ls, all_some (map (doc_label rc fc mc) docs) = Some ls.
Proof.
  induction docs as [| d t IH]; simpl; intros H; [eexists; reflexivity |].
  apply andb_true_iff in H. destruct H as [Hd Ht].
  destruct (proj1 (doc_label_fields rc fc mc d) Hd) as [l Hl]. rewrite Hl.
  destruct (IH Ht) as [ls Hls]. rewrite Hls. eexists. reflexivity.
Qed.

Lemma all_some_missing (rc fc mc : cuts) (docs : list doc) :
  forallb has_fields docs = false ->
  all_some (map (doc_label rc fc mc) docs) = None.
Proof.
  induction docs as [| d t IH]; simpl; intros H; [discriminate |].
  destruct (has_fields d) eqn:Hd; simpl in H.
  - destruct (proj1 (doc_label_fields rc fc mc d) Hd) as [l Hl]. rewrite Hl, (IH H). reflexivity.
  - destruct (doc_label rc fc mc d) eqn:Hl; [| reflexivity].
    assert (Hf : has_fields d = true) by (apply (doc_label_fields rc fc mc); eexists; exact Hl).
    congruence.
Qed.

Lemma compute_ok_inv (pct : pct_response) (docs : list doc) (dist : list (string * nat)) :
  compute_rfm_segments pct docs = Ok dist ->
  exists rc fc mc ls, all_some (map (doc_label rc fc mc) docs) = Some ls /\
                      dist = terms_agg 10 ls.
Proof.
  unfold compute_rfm_segments, bind. intros H.
  destruct (lookup_cuts (r_vals pct)) as [r |]; [| discriminate].
  destruct (lookup_cuts (f_vals pct)) as [f |]; [| discriminate].
  destruct (lookup_cuts (m_vals pct)) as [m |]; [| discriminate].
  destruct (script_cuts r) as [rc |], (script_cuts f) as [fc |], (script_cuts m) as [mc |];
    try discriminate.
  destruct (all_some (map (doc_label rc fc mc) docs)) as [ls |] eqn:E; [| discriminate].
  injection H as <-. exists rc, fc, mc, ls. auto.
Qed.

(** Whenever [compute_rfm_segments] returns a distribution, its counts
    add up to the number of documents of the index: every document is
    counted in exactly one bucket, the buckets have distinct keys among
    the seven labels, and the size-10 cap never cuts a bucket. *)
Lemma distribution_conservation (pct : pct_response) (docs : list doc)
    (dist : list (string * nat)) (H : compute_rfm_segments pct docs = Ok dist) :
  list_sum (map snd dist) = List.length docs /\
  NoDup (map fst dist) /\ incl (map fst dist) segment_labels.
Proof.
  destruct (compute_ok_inv _ _ _ H) as (rc & fc & mc & ls & Hls & ->).
  rewrite <- (length_map (doc_label rc fc mc) docs), <- (all_some_length _ _ Hls).
  apply terms_agg_conserves. exact (doc_labels_in _ _ _ _ _ Hls).
Qed.

Lemma es7_total_min (n : nat) :
  agg_total_customers (es7_hits_total n) = Nat.min n 10000.
Proof.
  unfold es7_hits_total. destruct (Nat.leb_spec n 10000) as [Hle | Hgt]; simpl.
  - symmetry. exact (Nat.min_l _ _ Hle).
  - symmetry. exact (Nat.min_r _ _ (Nat.lt_le_incl _ _ Hgt)).
Qed.

(** C7 (code defect). Whenever the segmentation returns a distribution,
    its counts add up to the number of documents, while
    [agg_total_customers] on an Elasticsearch 7+ store reads the default
    [hits.total], which stops counting at 10000. On an index of 10001
    customers the counts add up to 10001 and the reported total is
    10000. *)
Theorem distribution_total_mismatch :
  (forall (pct : pct_response) (docs : list doc) (dist : list (string * nat)),
     compute_rfm_segments pct docs = Ok dist ->
     list_sum (map snd dist) = List.length docs /\
     agg_total_customers (es7_hits_total (List.length docs)) = Nat.min (List.length docs) 10000) /\
  compute_rfm_segments ex_pct big_docs = Ok [("Champions", 10001)] /\
  list_sum (map snd [("Champions", 10001)]) = 10001 /\
  agg_total_customers (es7_hits_total (List.length big_docs)) = 10000.
Proof.
  split; [| split; [| split]].
  - intros pct docs dist H. split; [exact (proj1 (distribution_conservation _ _ _ H)) |].
    apply es7_total_min.
  - vm_compute. reflexivity.
  - reflexivity.
  - vm_compute. reflexivity.
Qed.

(* ------------------------------------------------------------------ *)
(** ** C4: missing percentile values *)

Lemma dict_get_err {V} (d : list (string * V)) (k : string) (e : py_error) :
  dict_get d k = Err e -> e = KeyError k.
Proof.
  induction d as [| [k' v] t IH]; simpl; [congruence |].
  destruct (String.eqb k' k); [discriminate | exact IH].
Qed.

Lemma lookup_cuts_cases (vals : pct_values) :
  (exists k, lookup_cuts vals = Err (KeyError k)) \/
  (exists a b c d, lookup_cuts vals = Ok (a, b, c, d) /\
     dict_get vals "20.0" = Ok a /\ dict_get vals "40.0" = Ok b /\
     dict_get vals "60.0" = Ok c /\ dict_get vals "80.0" = Ok d).
Proof.
  unfold lookup_cuts, bind.
  destruct (dict_get vals "20.0") as [a | e] eqn:E1;
    [| apply dict_get_err in E1; subst; left; eexists; reflexivity].
  destruct (dict_get vals "40.0") as [b | e] eqn:E2;
    [| apply dict_get_err in E2; subst; left; eexists; reflexivity].
  destruct (dict_get vals "60.0") as [c | e] eqn:E3;
    [| apply dict_get_err in E3; subst; left; eexists; reflexivity].
  destruct (dict_get vals "80.0") as [d | e] eqn:E4;
    [| apply dict_get_err in E4; subst; left; eexists; reflexivity].
  right. exists a, b, c, d. auto.
Qed.

Lemma compute_cut_vals (rc fc mc : cuts) (docs : list doc) :
  compute_rfm_segments (mk_pct (cut_vals rc) (cut_vals fc) (cut_vals mc)) docs =
  match all_some (map (doc_label rc fc mc) docs) with
  | Some ls => Ok (terms_agg 10 ls)
  | None => Err ScriptError
  end.
Proof. destruct rc, fc, mc. reflexivity. Qed.

(** C4 (as stated, refuted). The store answers every requested percentile
    key, with [null] for a field that has no value in the index. Such
    values are not replaced by a nearest available value: on an empty
    index, and on an index whose one customer has no recency value (its
    frequency and monetary cuts collapsed to a single value), the search
    fails. *)
Lemma null_percentile_not_substituted :
  compute_rfm_segments empty_pct [] = Err ScriptError /\
  compute_rfm_segments (mk_pct null_vals (full_vals 3 3 3 3) (full_vals 250 250 250 250))
    [mk_doc None (Some 3%Q) (Some 250%Q)] = Err ScriptError.
Proof. split; vm_compute; reflexivity. Qed.

(** C4 (amended). The cut points are the store's twelve values as
    returned, nothing substituted. When all twelve are numeric, whatever
    they are (equal, collapsed cuts included), each document is scored
    with exactly those cuts: if every document has the three fields the
    result is the size-10 terms aggregation of the labels, and if one
    lacks a field the search fails. A metric whose four values are
    [null] makes the search fail too. *)
Theorem percentile_values_used (rc fc mc : cuts) (docs : list doc) :
  (forallb has_fields docs = true ->
   exists ls, all_some (map (doc_label rc fc mc) docs) = Some ls /\
     compute_rfm_segments (mk_pct (cut_vals rc) (cut_vals fc) (cut_vals mc)) docs =
       Ok (terms_agg 10 ls)) /\
  (forallb has_fields docs = false ->
   compute_rfm_segments (mk_pct (cut_vals rc) (cut_vals fc) (cut_vals mc)) docs = Err ScriptError) /\
  compute_rfm_segments (mk_pct null_vals (cut_vals fc) (cut_vals mc)) docs = Err ScriptError /\
  compute_rfm_segments (mk_pct (cut_vals rc) null_vals (cut_vals mc)) docs = Err ScriptError /\
  compute_rfm_segments (mk_pct (cut_vals rc) (cut_vals fc) null_vals) docs = Err ScriptError.
Proof.
  split; [| split; [| split; [| split]]].
  - intros H. destruct (all_some_fields rc fc mc docs H) as [ls Hls].
    exists ls. split; [exact Hls |]. rewrite compute_cut_vals, Hls. reflexivity.
  - intros H. rewrite compute_cut_vals, (all_some_missing _ _ _ _ H). reflexivity.
  - destruct rc, fc, mc. reflexivity.
  - destruct rc, fc, mc. reflexivity.
  - destruct rc, fc, mc. reflexivity.
Qed.

(* ------------------------------------------------------------------ *)
(** ** C3, C5, C10: alerts *)

Lemma compute_no_zero_div (pct : pct_response) (docs : list doc) :
  compute_rfm_segments pct docs <> Err ZeroDivisionError.
Proof.
  unfold compute_rfm_segments.
  destruct (lookup_cuts_cases (r_vals pct)) as [[kr Hr] | (r1 & r2 & r3 & r4 & Hr & _)];
    rewrite Hr; cbn [bind]; [discriminate |].
  destruct (lookup_cuts_cases (f_vals pct)) as [[kf Hf] | (f1 & f2 & f3 & f4 & Hf & _)];
    rewrite Hf; cbn [bind]; [discriminate |].
  destruct (lookup_cuts_cases (m_vals pct)) as [[km Hm] | (m1 & m2 & m3 & m4 & Hm & _)];
    rewrite Hm; cbn [bind]; [discriminate |].
  destruct (script_cuts (r1, r2, r3, r4)) as [rc |], (script_cuts (f1, f2, f3, f4)) as [fc |],
    (script_cuts (m1, m2, m3, m4)) as [mc |]; try discriminate.
  destruct (all_some (map (doc_label rc fc mc) docs)); discriminate.
Qed.

(** C3. With [total = 0], [check_alerts] never divides: whatever the
    average rating, the unsatisfied count, the percentile answer and the
    documents behind the At Risk count, it does not fail with a division
    by zero, and when it returns alerts, neither the High unsatisfied rate
    nor the Large At-Risk group alert is among them. *)
Theorem zero_total_guard (total : nat) (avg : option Q) (unsat : nat)
    (pct : pct_response) (docs : list doc) (Htot : total = 0) :
  check_alerts total avg unsat (compute_rfm_segments pct docs) <> Err ZeroDivisionError /\
  (forall al, check_alerts total avg unsat (compute_rfm_segments pct docs) = Ok al ->
     ~ In "High unsatisfied rate" (titles al) /\ ~ In "Large At-Risk group" (titles al)).
Proof.
  subst total. pose proof (compute_no_zero_div pct docs) as Hnz.
  unfold check_alerts. cbn [Nat.eqb bind].
  destruct (compute_rfm_segments pct docs) as [s | e]; cbn [bind].
  - destruct (Qltb (match avg with Some a => a | None => 0%Q end) (7 # 2)); cbn.
    all: split; [discriminate |].
    all: intros al Hal;
         apply (f_equal (fun r => match r with Ok a => titles a | Err _ => [] end)) in Hal;
         simpl in Hal; rewrite <- Hal; simpl; intuition discriminate.
  - split; [intros He; apply Hnz; injection He as ->; reflexivity | intros al Hal; discriminate].
Qed.

Lemma zero_total_guard_witness :
  (0 = 0)%nat /\
  check_alerts 0 (Some 4%Q) 7 (compute_rfm_segments ex_pct ex_docs) = Ok [] /\
  check_alerts 0 (Some 4%Q) 7 (compute_rfm_segments ex_pct ex_docs) <> Err ZeroDivisionError.
Proof.
  split; [reflexivity |]. split; [vm_compute; reflexivity |].
  exact (proj1 (zero_total_guard 0 (Some 4%Q) 7 ex_pct ex_docs eq_refl)).
Defined.

(** C5. Average rating 3.2, 100 customers, 15 unsatisfied and 20 At Risk:
    all three alerts fire, in declaration order, with the texts "3.20",
    "15.0%" and "20.0%". *)
Theorem three_alert_scenario (segs : list (string * nat))
    (Hat : dict_get_default segs "At Risk" 0 = 20) :
  exists al,
    check_alerts 100 (Some (16 # 5)) 15 (Ok segs) = Ok al /\
    titles al = ["Low average rating"; "High unsatisfied rate"; "Large At-Risk group"] /\
    al = [("Low average rating", "Average rating is 3.20 (< 3.5)");
          ("High unsatisfied rate", "15.0% of customers are unsatisfied (>10%)");
          ("Large At-Risk group", "20 customers (20.0%) are At Risk (>15%)")] /\
    map (fun '(s, a) => contains s (snd a))
        (combine ["3.20"; "15.0%"; "20.0%"] al) = [true; true; true].
Proof.
  eexists. split; [| split; [| split]].
  - unfold check_alerts. cbn [bind]. rewrite Hat. vm_compute. reflexivity.
  - reflexivity.
  - reflexivity.
  - vm_compute. reflexivity.
Qed.

Lemma three_alert_scenario_witness :
  dict_get_default [("Champions", 40); ("At Risk", 20); ("Hibernating", 40)] "At Risk" 0 = 20 /\
  exists al,
    check_alerts 100 (Some (16 # 5)) 15
      (Ok [("Champions", 40); ("At Risk", 20); ("Hibernating", 40)]) = Ok al /\
    List.length al = 3.
Proof.
  assert (H : dict_get_default [("Champions", 40); ("At Risk", 20); ("Hibernating", 40)]
                "At Risk" 0 = 20) by reflexivity.
  split; [exact H |].
  destruct (three_alert_scenario _ H) as (al & Hal & _ & Heq & _).
  exists al. split; [exact Hal | rewrite Heq; reflexivity].
Defined.

(** C10 (code defect). On an empty index the store reports 0 customers, a
    [null] average rating, 0 unsatisfied customers and [null] percentile
    values. [check_alerts] calls [compute_rfm_segments] before its
    [if total] guard, the [null] cuts are written into the script as
    [None], and the search fails: the empty store gives an error, not the
    single Low average rating alert with 0.00 that the guards alone would
    produce. *)
Theorem empty_store_alerts :
  check_alerts 0 None 0 (compute_rfm_segments empty_pct []) = Err ScriptError /\
  check_alerts 0 None 0 (Ok []) =
    Ok [("Low average rating", "Average rating is 0.00 (< 3.5)")].
Proof. split; vm_compute; reflexivity. Qed.

(* ------------------------------------------------------------------ *)
(** ** Terms aggregations in general *)


Lemma add_label_get (l : string) (bs : list (string * nat)) (k : string) :
  dict_get_default (add_label l bs) k 0 =
  dict_get_default bs k 0 + (if String.eqb l k then 1 else 0).
Proof.
  induction bs as [| [k' n] t IH]; simpl.
  - destruct (String.eqb l k); reflexivity.
  - destruct (String.eqb k' l) eqn:E1; simpl.
    + apply String.eqb_eq in E1. subst k'.
      destruct (String.eqb l k); lia.
    + destruct (String.eqb k' k) eqn:E2; [| exact IH].
      apply String.eqb_eq in E2. subst k'.
      apply String.eqb_neq in E1.
      destruct (String.eqb l k) eqn:E3; [apply String.eqb_eq in E3; congruence | lia].
Qed.

Lemma count_labels_get_aux (ls : list string) (acc : list (string * nat)) (k : string) :
  dict_get_default (fold_left (fun bs l => add_label l bs) ls acc) k 0 =
  dict_get_default acc k 0 + count_occ String.string_dec ls k.
Proof.
  revert acc. induction ls as [| l t IH]; intros acc; simpl; [lia |].
  rewrite IH, add_label_get.
  destruct (String.string_dec l k) as [<- | Hne].
  - rewrite String.eqb_refl. lia.
  - apply String.eqb_neq in Hne. rewrite Hne. lia.
Qed.

Lemma count_labels_get (ls : list string) (k : string) :
  dict_get_default (count_labels ls) k 0 = count_occ String.string_dec ls k.
Proof. unfold count_labels. rewrite count_labels_get_aux. reflexivity. Qed.

Lemma add_label_keys_sup (l : string) (bs : list (string * nat)) (x : string) :
  In x (l :: map fst bs) -> In x (map fst (add_label l bs)).
Proof.
  induction bs as [| [k n] t IH]; simpl; [tauto |].
  destruct (String.eqb k l) eqn:E; simpl.
  - apply String.eqb_eq in E. subst k. tauto.
  - intros [Hx | [Hx | Hx]]; [right; apply IH; simpl; tauto | left; exact Hx |].
    right. apply IH. simpl. tauto.
Qed.

Lemma count_labels_keys_gen_aux (ls : list string) (acc : list (string * nat)) :
  NoDup (map fst acc) ->
  let r := fold_left (fun bs l => add_label l bs) ls acc in
  NoDup (map fst r) /\ (forall x, In x (map fst r) <-> In x (map fst acc) \/ In x ls).
Proof.
  revert acc. induction ls as [| l t IH]; intros acc Hn; simpl; [split; [exact Hn | tauto] |].
  destruct (add_label_keys l acc) as [Hi Hn'].
  destruct (IH (add_label l acc) (Hn' Hn)) as [Hr1 Hr2].
  split; [exact Hr1 |]. intros x. rewrite Hr2. split.
  - intros [Hx | Hx]; [apply Hi in Hx; simpl in Hx |]; tauto.
  - intros [Hx | [Hx | Hx]].
    + left. apply add_label_keys_sup. simpl. tauto.
    + left. apply add_label_keys_sup. simpl. tauto.
    + right. exact Hx.
Qed.

Lemma count_labels_keys_gen (ls : list string) :
  NoDup (map fst (count_labels ls)) /\
  (forall x, In x (map fst (count_labels ls)) <-> In x ls).
Proof.
  destruct (count_labels_keys_gen_aux ls [] (NoDup_nil _)) as [H1 H2].
  split; [exact H1 | intros x; rewrite H2; simpl; tauto].
Qed.

Lemma nodup_get {V} (l : list (string * V)) (k : string) (v d : V) :
  NoDup (map fst l) -> In (k, v) l -> dict_get_default l k d = v.
Proof.
  induction l as [| [k' v'] t IH]; simpl; [tauto |].
  intros Hn [Heq | Hin]; inversion Hn as [| ? ? Hnin Hn']; subst.
  - injection Heq as -> ->. rewrite String.eqb_refl. reflexivity.
  - destruct (String.eqb k' k) eqn:E.
    + apply String.eqb_eq in E. subst k'. exfalso. apply Hnin.
      apply in_map_iff. exists (k, v). auto.
    + apply IH; assumption.
Qed.

Lemma get_not_in {V} (l : list (string * V)) (k : string) (d : V) :
  ~ In k (map fst l) -> dict_get_default l k d = d.
Proof.
  induction l as [| [k' v'] t IH]; simpl; [reflexivity |].
  intros Hn. destruct (String.eqb k' k) eqn:E.
  - apply String.eqb_eq in E. tauto.
  - apply IH. tauto.
Qed.

Lemma perm_get {V} (l l' : list (string * V)) (k : string) (d : V) :
  NoDup (map fst l) -> Permutation l l' -> dict_get_default l k d = dict_get_default l' k d.
Proof.
  intros Hn Hp.
  assert (Hn' : NoDup (map fst l')) by exact (Permutation_NoDup (Permutation_map fst Hp) Hn).
  destruct (in_dec String.string_dec k (map fst l)) as [Hin | Hnin].
  - apply in_map_iff in Hin. destruct Hin as [[k0 v] [Hk Hin]]. simpl in Hk. subst k0.
    rewrite (nodup_get l k v d Hn Hin).
    symmetry. apply nodup_get; [exact Hn' | exact (Permutation_in _ Hp Hin)].
  - rewrite (get_not_in l k d Hnin). symmetry. apply get_not_in.
    intros Hin. apply Hnin.
    exact (Permutation_in _ (Permutation_map fst (Permutation_sym Hp)) Hin).
Qed.

Lemma in_firstn_in {A} (n : nat) (l : list A) (x : A) : In x (firstn n l) -> In x l.
Proof.
  intros H. rewrite <- (firstn_skipn n l). apply in_or_app. left. exact H.
Qed.

Lemma terms_agg_in (n : nat) (ls : list string) (k : string) (c : nat) :
  In (k, c) (terms_agg n ls) -> In (k, c) (count_labels ls).
Proof.
  unfold terms_agg. intros H. apply in_firstn_in in H.
  exact (Permutation_in _ (sort_buckets_perm _) H).
Qed.

Lemma terms_agg_counts (n : nat) (ls : list string) (k : string) (c : nat) :
  In (k, c) (terms_agg n ls) -> c = count_occ String.string_dec ls k /\ 0 < c.
Proof.
  intros H. apply terms_agg_in in H.
  destruct (count_labels_keys_gen ls) as [Hn Hk].
  assert (Hc : c = count_occ String.string_dec ls k).
  { rewrite <- count_labels_get. symmetry. apply nodup_get; assumption. }
  split; [exact Hc |].
  rewrite Hc. apply count_occ_In, Hk, in_map_iff. exists (k, c). auto.
Qed.

(** Buckets in the order of a terms aggregation: counts never increase. *)
Definition bucket_ge (a b : string * nat) : Prop := snd b <= snd a.

Lemma insert_bucket_hd (a b : string * nat) (l : list (string * nat)) :
  HdRel bucket_ge a l -> bucket_ge a b -> HdRel bucket_ge a (insert_bucket b l).
Proof.
  intros Hh Hab. destruct l as [| b' t]; simpl; [constructor; exact Hab |].
  destruct (bucket_before b' b); constructor; [inversion Hh; assumption | exact Hab].
Qed.

Lemma insert_bucket_sorted (b : string * nat) (l : list (string * nat)) :
  Sorted bucket_ge l -> Sorted bucket_ge (insert_bucket b l).
Proof.
  induction l as [| b' t IH]; intros Hs; simpl; [repeat constructor |].
  apply Sorted_inv in Hs. destruct Hs as [Hs Hh].
  unfold bucket_before. destruct (snd b <? snd b') eqn:E1; simpl.
  - apply Nat.ltb_lt in E1. constructor; [exact (IH Hs) |].
    apply insert_bucket_hd; [exact Hh | unfold bucket_ge; lia].
  - apply Nat.ltb_ge in E1.
    destruct ((snd b' =? snd b) && String.ltb (fst b') (fst b)) eqn:E2.
    + apply andb_true_iff in E2. destruct E2 as [E2 _]. apply Nat.eqb_eq in E2.
      constructor; [exact (IH Hs) |].
      apply insert_bucket_hd; [exact Hh | unfold bucket_ge; lia].
    + constructor; [constructor; assumption | constructor; exact E1].
Qed.

Lemma sort_buckets_sorted (bs : list (string * nat)) :
  StronglySorted bucket_ge (sort_buckets bs).
Proof.
  apply Sorted_StronglySorted; [unfold Relations_1.Transitive, bucket_ge; intros; lia |].
  induction bs as [| b t IH]; simpl; [constructor | apply insert_bucket_sorted, IH].
Qed.

Lemma strongly_sorted_app {A} (R : A -> A -> Prop) (l1 l2 : list A) (x y : A) :
  StronglySorted R (l1 ++ l2) -> In x l1 -> In y l2 -> R x y.
Proof.
  induction l1 as [| a t IH]; simpl; [tauto |].
  intros Hs Hx Hy. apply StronglySorted_inv in Hs. destruct Hs as [Hs Hf].
  destruct Hx as [<- | Hx].
  - rewrite Forall_forall in Hf. apply Hf, in_or_app. right. exact Hy.
  - exact (IH Hs Hx Hy).
Qed.

Lemma count_labels_length (ls : list string) :
  List.length (count_labels ls) = List.length (nodup String.string_dec ls).
Proof.
  destruct (count_labels_keys_gen ls) as [Hn Hk].
  rewrite <- (length_map fst (count_labels ls)).
  apply Nat.le_antisymm; apply NoDup_incl_length.
  - exact Hn.
  - intros x Hx. apply (nodup_In String.string_dec). apply Hk. exact Hx.
  - apply NoDup_nodup.
  - intros x Hx. apply Hk. apply (nodup_In String.string_dec). exact Hx.
Qed.

(* ------------------------------------------------------------------ *)
(** ** [agg_count_by] *)

(** [agg_count_by] reports exact counts: every bucket [(k, c)] it returns
    has [c] equal to the number of documents whose field holds [k], and
    [c > 0] (no empty bucket). *)
Theorem agg_count_by_exact (vals : list (option string)) (k : string) (c : nat)
    (H : In (k, c) (agg_count_by vals)) :
  c = count_occ String.string_dec (present vals) k /\ 0 < c.
Proof. exact (terms_agg_counts 100 (present vals) k c H). Qed.

Lemma agg_count_by_exact_witness :
  In ("Satisfied", 2) (agg_count_by [Some "Satisfied"; None; Some "Neutral"; Some "Satisfied"]) /\
  2 = count_occ String.string_dec (present [Some "Satisfied"; None; Some "Neutral"; Some "Satisfied"]) "Satisfied".
Proof.
  assert (H : In ("Satisfied", 2)
                (agg_count_by [Some "Satisfied"; None; Some "Neutral"; Some "Satisfied"]))
    by (vm_compute; left; reflexivity).
  split; [exact H | exact (proj1 (agg_count_by_exact _ _ _ H))].
Defined.

(** [agg_count_by] keeps at most 100 distinct values: it returns
    min(100, number of distinct values) buckets, and a value left out
    occurs in no more documents than any value kept. *)
Theorem agg_count_by_truncation (vals : list (option string)) :
  List.length (agg_count_by vals) =
    Nat.min 100 (List.length (nodup String.string_dec (present vals))) /\
  (forall k x, In k (present vals) -> ~ In k (map fst (agg_count_by vals)) ->
     In x (agg_count_by vals) -> count_occ String.string_dec (present vals) k <= snd x).
Proof.
  unfold agg_count_by, terms_agg. set (ls := present vals).
  split.
  - rewrite length_firstn, (Permutation_length (sort_buckets_perm _)), count_labels_length.
    reflexivity.
  - intros k x Hk Hnot Hx.
    destruct (count_labels_keys_gen ls) as [Hn Hkeys].
    assert (Hkin : In k (map fst (count_labels ls))) by (apply Hkeys; exact Hk).
    apply in_map_iff in Hkin. destruct Hkin as [[k0 c] [Hk0 Hin]]. simpl in Hk0. subst k0.
    assert (Hc : c = count_occ String.string_dec ls k).
    { rewrite <- count_labels_get. symmetry. apply nodup_get; assumption. }
    rewrite <- Hc.
    assert (Hins : In (k, c) (sort_buckets (count_labels ls)))
      by exact (Permutation_in _ (Permutation_sym (sort_buckets_perm _)) Hin).
    rewrite <- (firstn_skipn 100 (sort_buckets (count_labels ls))) in Hins.
    apply in_app_or in Hins. destruct Hins as [Hf | Hs].
    + exfalso. apply Hnot. apply in_map_iff. exists (k, c). auto.
    + pose proof (sort_buckets_sorted (count_labels ls)) as Hss.
      rewrite <- (firstn_skipn 100 (sort_buckets (count_labels ls))) in Hss.
      exact (strongly_sorted_app bucket_ge _ _ x (k, c) Hss Hx Hs).
Qed.

(** With at most 100 distinct values, [agg_count_by] loses nothing: its
    counts add up to the number of documents that have the field, and its
    keys are exactly the values present. *)
Theorem agg_count_by_complete (vals : list (option string))
    (H : List.length (nodup String.string_dec (present vals)) <= 100) :
  list_sum (map snd (agg_count_by vals)) = List.length (present vals) /\
  (forall k, In k (map fst (agg_count_by vals)) <-> In k (present vals)).
Proof.
  unfold agg_count_by, terms_agg. set (ls := present vals).
  pose proof (sort_buckets_perm (count_labels ls)) as Hp.
  rewrite firstn_all2;
    [| rewrite (Permutation_length Hp), count_labels_length; exact H].
  destruct (count_labels_keys_gen ls) as [Hn Hkeys].
  split.
  - rewrite (Permutation_list_sum (Permutation_map snd Hp)). apply count_labels_sum.
  - intros k. rewrite <- Hkeys. split; intros Hk.
    + exact (Permutation_in _ (Permutation_map fst Hp) Hk).
    + exact (Permutation_in _ (Permutation_map fst (Permutation_sym Hp)) Hk).
Qed.

Lemma agg_count_by_complete_witness :
  List.length (nodup String.string_dec (present [Some "a"; None; Some "b"; Some "a"])) <= 100 /\
  list_sum (map snd (agg_count_by [Some "a"; None; Some "b"; Some "a"])) = 3.
Proof.
  assert (H : List.length (nodup String.string_dec (present [Some "a"; None; Some "b"; Some "a"]))
              <= 100) by (vm_compute; lia).
  split; [exact H | exact (proj1 (agg_count_by_complete _ H))].
Defined.

(* ------------------------------------------------------------------ *)
(** ** The segment cascade in closed form, and the segment counts *)

Lemma range5 (n : nat) : 1 <= n <= 5 -> n = 1 \/ n = 2 \/ n = 3 \/ n = 4 \/ n = 5.
Proof. lia. Qed.

Ltac enum5 n H := destruct (range5 n H) as [-> | [-> | [-> | [-> | ->]]]].

(** On sub-scores in [1,5] the cascade gives each label on an explicit set
    of triples. Champions: R = 5 and (F = 5, or F = 4 and M >= 4). Loyal
    Customers: the other R = 5 triples, and R = 4 with F >= 4. Frequent
    Buyers: R <= 3 and F = 5. Big Spenders: M = 5, F <= 4, and R <= 3 or
    (R = 4 and F <= 3). Potential Loyalists: R = 4, F <= 2, M <= 4. At
    Risk: R = 2, F <= 4, M <= 4. Hibernating: R = 1 or 3, or R = 4 with
    F = 3, and F, M <= 4 (so a customer with R = 4, F = 3 is Hibernating). *)
Theorem classify_closed_form (R F M : nat)
    (HR : 1 <= R <= 5) (HF : 1 <= F <= 5) (HM : 1 <= M <= 5) :
  (classify R F M = "Champions" <-> R = 5 /\ (F = 5 \/ (F = 4 /\ 4 <= M))) /\
  (classify R F M = "Loyal Customers" <->
     (R = 5 /\ (F <= 3 \/ (F = 4 /\ M <= 3))) \/ (R = 4 /\ 4 <= F)) /\
  (classify R F M = "Frequent Buyers" <-> R <= 3 /\ F = 5) /\
  (classify R F M = "Big Spenders" <->
     M = 5 /\ F <= 4 /\ (R <= 3 \/ (R = 4 /\ F <= 3))) /\
  (classify R F M = "Potential Loyalists" <-> R = 4 /\ F <= 2 /\ M <= 4) /\
  (classify R F M = "At Risk" <-> R = 2 /\ F <= 4 /\ M <= 4) /\
  (classify R F M = "Hibernating" <->
     (R = 1 \/ R = 3 \/ (R = 4 /\ F = 3)) /\ F <= 4 /\ M <= 4).
Proof.
  enum5 R HR; enum5 F HF; enum5 M HM; cbn -[String.eqb];
    repeat split; intros; first [reflexivity | discriminate | lia].
Qed.

Lemma classify_closed_form_witness :
  (1 <= 4 <= 5 /\ 1 <= 3 <= 5 /\ 1 <= 2 <= 5) /\ classify 4 3 2 = "Hibernating".
Proof.
  assert (H1 : 1 <= 4 <= 5) by lia. assert (H2 : 1 <= 3 <= 5) by lia.
  assert (H3 : 1 <= 2 <= 5) by lia.
  split; [auto |].
  destruct (classify_closed_form 4 3 2 H1 H2 H3) as (_ & _ & _ & _ & _ & _ & Hh).
  apply Hh. lia.
Defined.

Lemma at_risk_label_bool (R F M : nat) :
  1 <= R <= 5 -> 1 <= F <= 5 -> 1 <= M <= 5 ->
  String.eqb (classify R F M) "At Risk" = (R =? 2) && (F <=? 4) && (M <=? 4).
Proof.
  intros HR HF HM. enum5 R HR; enum5 F HF; enum5 M HM; reflexivity.
Qed.

Lemma segments_get (ls : list string) (l : string) :
  (forall x, In x ls -> In x segment_labels) ->
  dict_get_default (terms_agg 10 ls) l 0 = count_occ String.string_dec ls l.
Proof.
  intros Hls.
  destruct (count_labels_keys_aux ls [] Hls (incl_nil_l _) (NoDup_nil _)) as [Hi Hn].
  fold (count_labels ls) in Hi, Hn.
  pose proof (sort_buckets_perm (count_labels ls)) as Hp.
  unfold terms_agg. rewrite firstn_all2.
  - rewrite <- (perm_get _ _ l 0 Hn (Permutation_sym Hp)). apply count_labels_get.
  - rewrite (Permutation_length Hp), <- (length_map fst).
    pose proof (NoDup_incl_length Hn Hi) as H7. simpl in H7. lia.
Qed.

Lemma all_some_count (rc fc mc : cuts) (docs : list doc) (ls : list string) (l : string) :
  all_some (map (doc_label rc fc mc) docs) = Some ls ->
  count_occ String.string_dec ls l =
  List.length (filter (fun d => match doc_label rc fc mc d with
                                | Some l' => String.eqb l' l
                                | None => false
                                end) docs).
Proof.
  revert ls. induction docs as [| d t IH]; cbn [map all_some filter]; intros ls H.
  - injection H as <-. reflexivity.
  - destruct (doc_label rc fc mc d) as [l0 |]; [| discriminate].
    destruct (all_some (map (doc_label rc fc mc) t)) as [ls0 |]; [| discriminate].
    injection H as <-. cbn [count_occ].
    destruct (String.string_dec l0 l) as [E | E].
    + subst l0. rewrite String.eqb_refl. cbn [List.length]. rewrite (IH ls0 eq_refl). reflexivity.
    + rewrite (proj2 (String.eqb_neq _ _) E). exact (IH ls0 eq_refl).
Qed.


(** With numeric cut sets [rc], [fc], [mc] and an index whose documents
    all have the three fields, [compute_rfm_segments] returns a
    distribution whose entry for any label (0 when absent, as
    [segs.get(label, 0)] reads it) is the number of documents whose
    scores the cascade sends to that label. *)
Theorem segments_exact_counts (rc fc mc : cuts) (docs : list doc)
    (Hd : forallb has_fields docs = true) :
  exists dist,
    compute_rfm_segments (mk_pct (cut_vals rc) (cut_vals fc) (cut_vals mc)) docs = Ok dist /\
    forall l, dict_get_default dist l 0 =
              List.length (filter (fun d => match doc_label rc fc mc d with
                                            | Some l' => String.eqb l' l
                                            | None => false
                                            end) docs).
Proof.
  destruct (all_some_fields rc fc mc docs Hd) as [ls Hls].
  exists (terms_agg 10 ls). split; [rewrite compute_cut_vals, Hls; reflexivity |].
  intros l. rewrite (segments_get ls l (doc_labels_in _ _ _ _ _ Hls)).
  exact (all_some_count _ _ _ _ _ _ Hls).
Qed.

Lemma segments_exact_counts_witness :
  forallb has_fields ex_docs = true /\
  exists dist,
    compute_rfm_segments (mk_pct (cut_vals ex_cuts) (cut_vals (mk_cuts 1 2 3 4))
                                 (cut_vals (mk_cuts 100 200 300 400))) ex_docs = Ok dist /\
    dict_get_default dist "Champions" 0 = 2.
Proof.
  assert (Hd : forallb has_fields ex_docs = true) by reflexivity.
  split; [exact Hd |].
  destruct (segments_exact_counts ex_cuts (mk_cuts 1 2 3 4) (mk_cuts 100 200 300 400) ex_docs Hd)
    as [dist [Hc Hn]].
  exists dist. split; [exact Hc | rewrite Hn; vm_compute; reflexivity].
Defined.

(** On such an index the At Risk count [check_alerts] reads is the number
    of documents with R = 2 and F, M <= 4. *)
Theorem at_risk_count (rc fc mc : cuts) (docs : list doc)
    (Hd : forallb has_fields docs = true) :
  exists dist,
    compute_rfm_segments (mk_pct (cut_vals rc) (cut_vals fc) (cut_vals mc)) docs = Ok dist /\
    dict_get_default dist "At Risk" 0 =
    List.length (filter (fun d => match days d, items d, spend d with
                                  | Some r, Some f, Some m =>
                                      (r_score rc r =? 2) && (fm_score fc f <=? 4) &&
                                      (fm_score mc m <=? 4)
                                  | _, _, _ => false
                                  end) docs).
Proof.
  destruct (all_some_fields rc fc mc docs Hd) as [ls Hls].
  exists (terms_agg 10 ls). split; [rewrite compute_cut_vals, Hls; reflexivity |].
  rewrite (segments_get ls _ (doc_labels_in _ _ _ _ _ Hls)), (all_some_count _ _ _ _ _ _ Hls).
  f_equal. apply filter_ext. intros d. unfold doc_label.
  destruct (days d) as [r |], (items d) as [f |], (spend d) as [m |]; try reflexivity.
  apply at_risk_label_bool; [apply r_score_range | apply fm_score_range | apply fm_score_range].
Qed.

Lemma at_risk_count_witness :
  forallb has_fields ex_docs = true /\
  exists dist,
    compute_rfm_segments (mk_pct (cut_vals ex_cuts) (cut_vals (mk_cuts 1 2 3 4))
                                 (cut_vals (mk_cuts 100 200 300 400))) ex_docs = Ok dist /\
    dict_get_default dist "At Risk" 0 = 1.
Proof.
  assert (Hd : forallb has_fields ex_docs = true) by reflexivity.
  split; [exact Hd |].
  destruct (at_risk_count ex_cuts (mk_cuts 1 2 3 4) (mk_cuts 100 200 300 400) ex_docs Hd)
    as [dist [Hc Hn]].
  exists dist. split; [exact Hc | rewrite Hn; vm_compute; reflexivity].
Defined.



(* ------------------------------------------------------------------ *)
(** ** [check_alerts] in general *)

Lemma Qltb_iff (a b : Q) : Qltb a b = true <-> (a < b)%Q.
Proof.
  unfold Qltb. rewrite negb_true_iff. split.
  - intros H. apply Qnot_le_lt. intros H'. apply Qle_bool_iff in H'. congruence.
  - intros H. destruct (Qle_bool b a) eqn:E; [| reflexivity].
    apply Qle_bool_iff in E. exfalso. exact (Qlt_not_le _ _ H E).
Qed.

Lemma pct_above (th u t : nat) : 0 < t ->
  Qltb (inject_Z (Z.of_nat th)) (inject_Z (Z.of_nat u) / inject_Z (Z.of_nat t) * 100)%Q =
  (th * t <? 100 * u).
Proof.
  intros Ht.
  assert (Hiff : Qltb (inject_Z (Z.of_nat th))
                      (inject_Z (Z.of_nat u) / inject_Z (Z.of_nat t) * 100)%Q = true
                 <-> th * t < 100 * u).
  { rewrite Qltb_iff. destruct t as [| t']; [lia |].
    unfold Qlt, Qdiv, Qmult, Qinv. simpl.
    rewrite Pos.mul_1_r, Zpos_P_of_succ_nat. lia. }
  apply eq_true_iff_eq. rewrite Hiff, Nat.ltb_lt. reflexivity.
Qed.

Lemma py_div_pos (u t : nat) : 0 < t ->
  py_div (inject_Z (Z.of_nat u)) (inject_Z (Z.of_nat t)) =
  Ok (inject_Z (Z.of_nat u) / inject_Z (Z.of_nat t))%Q.
Proof.
  intros Ht. unfold py_div.
  destruct (Qeq_bool (inject_Z (Z.of_nat t)) 0%Q) eqn:E; [| reflexivity].
  apply Qeq_bool_iff in E. unfold Qeq in E. simpl in E. lia.
Qed.

Lemma check_alerts_shape (total : nat) (avg : option Q) (unsat : nat)
    (s : list (string * nat)) :
  exists al,
    check_alerts total avg unsat (Ok s) = Ok al /\
    titles al =
      ((if Qltb (match avg with Some a => a | None => 0%Q end) (7 # 2)
        then ["Low average rating"] else []) ++
       (if (0 <? total) && (10 * total <? 100 * unsat)
        then ["High unsatisfied rate"] else []) ++
       (if (0 <? total) && (15 * total <? 100 * dict_get_default s "At Risk" 0)
        then ["Large At-Risk group"] else []))%list.
Proof.
  unfold check_alerts.
  set (avg' := match avg with Some a => a | None => 0%Q end).
  destruct total as [| t'].
  - cbn [Nat.eqb bind Nat.ltb Nat.leb andb].
    replace (Qltb 10%Q 0%Q) with false by reflexivity.
    destruct (Qltb avg' (7 # 2)); eexists; (split; [reflexivity | reflexivity]).
  - cbn [Nat.eqb bind].
    rewrite (py_div_pos unsat (S t')) by lia. cbn [bind].
    rewrite (py_div_pos (dict_get_default s "At Risk" 0) (S t')) by lia. cbn [bind].
    change 10%Q with (inject_Z (Z.of_nat 10)).
    change 15%Q with (inject_Z (Z.of_nat 15)).
    rewrite !pct_above by lia.
    replace (0 <? S t') with true by reflexivity. cbn [andb].
    destruct (Qltb avg' (7 # 2)), (10 * S t' <? 100 * unsat), (15 * S t' <? 100 * dict_get_default s "At Risk" 0);
      eexists; (split; [reflexivity | reflexivity]).
Qed.

Lemma check_alerts_err (total : nat) (avg : option Q) (unsat : nat) (e : py_error) :
  check_alerts total avg unsat (Err e) = Err e.
Proof.
  unfold check_alerts. destruct total as [| t']; cbn [Nat.eqb bind]; [reflexivity |].
  rewrite (py_div_pos unsat (S t')) by lia. reflexivity.
Qed.

(** Given the segment distribution, [check_alerts] returns its alerts in
    declaration order, each at most once: Low average rating exactly when
    the average rating ([null] read as 0.0) is below 3.5, High unsatisfied
    rate exactly when the index is not empty and the unsatisfied count is
    over 10% of the total, Large At-Risk group exactly when the index is
    not empty and the At Risk count ([segs.get("At Risk", 0)]) is over 15%
    of the total. *)
Theorem alerts_fire_conditions (total : nat) (avg : option Q) (unsat : nat)
    (s : list (string * nat)) :
  exists al,
    check_alerts total avg unsat (Ok s) = Ok al /\
    titles al =
      ((if Qltb (match avg with Some a => a | None => 0%Q end) (7 # 2)
        then ["Low average rating"] else []) ++
       (if (0 <? total) && (10 * total <? 100 * unsat)
        then ["High unsatisfied rate"] else []) ++
       (if (0 <? total) && (15 * total <? 100 * dict_get_default s "At Risk" 0)
        then ["Large At-Risk group"] else []))%list.
Proof. apply check_alerts_shape. Qed.

(** [check_alerts] fails exactly when its segment request fails, with the
    same error: none of its own divisions ever raises. *)
Theorem alerts_fail_only_with_segments (total : nat) (avg : option Q) (unsat : nat)
    (segs : result (list (string * nat))) (e : py_error) :
  check_alerts total avg unsat segs = Err e <-> segs = Err e.
Proof.
  split.
  - destruct segs as [s | e'].
    + destruct (check_alerts_shape total avg unsat s) as [al [Hal _]].
      rewrite Hal. discriminate.
    + rewrite check_alerts_err. intros H. injection H as ->. reflexivity.
  - intros ->. apply check_alerts_err.
Qed.

(* ------------------------------------------------------------------ *)
(** ** The question dispatch *)

(** Every option of the select box is handled: choosing it never raises a
    [KeyError], and each predefined question runs its own query. *)
Theorem dispatch_options :
  (forall q, In q question_options -> exists a, dispatch q = Ok a) /\
  (forall name qr, In (name, qr) PREDEFINED_QUERIES -> dispatch name = Ok (RunQuery qr)).
Proof.
  split.
  - intros q Hq. simpl in Hq.
    repeat destruct Hq as [<- | Hq]; try contradiction; eexists; reflexivity.
  - intros name qr H. simpl in H.
    repeat destruct H as [H | H]; try contradiction; injection H as <- <-; reflexivity.
Qed.
